(** * screen-blur-focus: the Electron main process (electron-main.js)

    A shallow embedding of the main process of the Electron version of
    Screen Blur Focus: one overlay window per display, a 100 ms timer that
    finds the display under the cursor and tells every overlay whether it is
    to blur, a tray menu that switches the blur on and off and picks its
    intensity, and a relaunch of the application when a display is added or
    removed.

    Conventions of the model.
    - Coordinates are integers ([Z]): Electron documents the fields of a
      [Rectangle] and of a [Point] as integers, and for integers of the size
      of a desktop the JavaScript sum [bounds.x + bounds.width] is exact.
    - The opacity is a JavaScript number that the program only stores and
      passes on; it is kept as a binary64 float, so the literal [0.7] is the
      double the program holds.
    - What the program does to the outside (IPC messages to an overlay,
      showing a window, calls on [app]) is recorded in the state: a log of
      sent messages and a visibility flag in every window, a log of calls
      on [app] in the process. *)

From Stdlib Require Import ZArith Floats String.
From stdpp Require Import base list.

Set Warnings "-inexact-float".
Local Open Scope Z_scope.

(** ** What Electron hands to the program *)

(** [Rectangle]: the [bounds] of a display. *)
Record Rectangle := {
  x : Z;
  y : Z;
  width : Z;
  height : Z
}.

(** [Display]: of the object [screen.getAllDisplays()] returns, the program
    reads only [bounds]. *)
Record Display := { bounds : Rectangle }.

(** [Point]: what [screen.getCursorScreenPoint()] returns.  The cursor's
    fields are [x] and [y] in the source; they are [px] and [py] here, since
    the two records cannot share field names. *)
Record Point := { px : Z; py : Z }.

(** The module [screen] as the program reads it at one instant. *)
Record Screen := {
  getAllDisplays : list Display;
  getCursorScreenPoint : Point
}.

(** ** Finding the screen the cursor is on (updateOverlays, lines 39-49) *)

(** The condition of the [if] of lines 43-46. *)
Definition cursorInBounds (currentCursor : Point) (bounds : Rectangle) : bool :=
  (x bounds <=? px currentCursor) &&
  (px currentCursor <? x bounds + width bounds) &&
  (y bounds <=? py currentCursor) &&
  (py currentCursor <? y bounds + height bounds).

(** [displays.forEach((display, index) => ...)] from position [index] on, with
    the variable [mouseScreenIndex] threaded through: every display whose
    bounds hold the cursor assigns its index. *)
Fixpoint forEachDisplay (currentCursor : Point) (displays : list Display)
    (index mouseScreenIndex : nat) : nat :=
  match displays with
  | [] => mouseScreenIndex
  | display :: rest =>
      forEachDisplay currentCursor rest (S index)
        (if cursorInBounds currentCursor (bounds display)
         then index else mouseScreenIndex)
  end.

(** [let mouseScreenIndex = 0; displays.forEach(...)]: the value of
    [mouseScreenIndex] after the loop. *)
Definition mouseScreenIndex (scr : Screen) : nat :=
  forEachDisplay (getCursorScreenPoint scr) (getAllDisplays scr) 0%nat 0%nat.

(** ** Overlay windows (createOverlayWindow, lines 11-33) *)

(** [overlay.webContents.send(channel, blurred, opacity)]. *)
Record IpcMessage := {
  channel : string;
  blurred : bool;
  opacity : float
}.

Record WebPreferences := {
  nodeIntegration : bool;
  contextIsolation : bool
}.

(** A [BrowserWindow] as the program configures and drives it.  The options
    [x], [y], [width] and [height] are kept together as [winBounds].
    [visible] is the window's shown/hidden state and [sent] the messages sent
    to its [webContents], oldest first. *)
Record BrowserWindow := {
  winBounds : Rectangle;
  frame : bool;
  transparent : bool;
  alwaysOnTop : bool;
  skipTaskbar : bool;
  focusable : bool;
  webPreferences : WebPreferences;
  ignoreMouseEvents : bool;
  loadedFile : string;
  alwaysOnTopLevel : string;
  visible : bool;
  sent : list IpcMessage
}.

(** [new BrowserWindow({...})] followed by [setIgnoreMouseEvents(true)],
    [loadFile('overlay.html')] and [setAlwaysOnTop(true, 'screen-saver')].
    The options give no [show], so the window is created shown (Electron's
    default). *)
Definition createOverlayWindow (display : Display) : BrowserWindow :=
  {| winBounds := {| x := x (bounds display);
                     y := y (bounds display);
                     width := width (bounds display);
                     height := height (bounds display) |};
     frame := false;
     transparent := true;
     alwaysOnTop := true;
     skipTaskbar := true;
     focusable := false;
     webPreferences := {| nodeIntegration := true; contextIsolation := false |};
     ignoreMouseEvents := true;
     loadedFile := "overlay.html";
     alwaysOnTopLevel := "screen-saver";
     visible := true;
     sent := [] |}.

(** [overlay.webContents.send('set-blur', blurred, opacity)]. *)
Definition send (overlay : BrowserWindow) (msg : IpcMessage) : BrowserWindow :=
  {| winBounds := winBounds overlay;
     frame := frame overlay;
     transparent := transparent overlay;
     alwaysOnTop := alwaysOnTop overlay;
     skipTaskbar := skipTaskbar overlay;
     focusable := focusable overlay;
     webPreferences := webPreferences overlay;
     ignoreMouseEvents := ignoreMouseEvents overlay;
     loadedFile := loadedFile overlay;
     alwaysOnTopLevel := alwaysOnTopLevel overlay;
     visible := visible overlay;
     sent := sent overlay ++ [msg] |}.

(** [overlay.show()]. *)
Definition show (overlay : BrowserWindow) : BrowserWindow :=
  {| winBounds := winBounds overlay;
     frame := frame overlay;
     transparent := transparent overlay;
     alwaysOnTop := alwaysOnTop overlay;
     skipTaskbar := skipTaskbar overlay;
     focusable := focusable overlay;
     webPreferences := webPreferences overlay;
     ignoreMouseEvents := ignoreMouseEvents overlay;
     loadedFile := loadedFile overlay;
     alwaysOnTopLevel := alwaysOnTopLevel overlay;
     visible := true;
     sent := sent overlay |}.

(** ** The process (lines 4-9 and 93-120) *)

(** Where the process stands: before [app.whenReady()] resolves, while the
    timer and the handlers are installed, after [app.relaunch(); app.exit()],
    after [app.quit()].  In the last two the process is gone. *)
Inductive Phase := Starting | Running | Restarting | Quitting.

(** The calls the program makes on [app]. *)
Inductive AppCall := Relaunch | Exit | Quit.

(** The module-level variables that carry behaviour ([mainWindow] is never
    assigned and [tray] only holds the tray icon), with the phase and the log
    of calls on [app]. *)
Record Main := {
  overlayWindows : list BrowserWindow;
  currentMouseScreen : nat;
  blurEnabled : bool;
  blurOpacity : float;
  phase : Phase;
  appCalls : list AppCall
}.

(** The state a fresh process starts from (lines 6-9). *)
Definition initial : Main :=
  {| overlayWindows := [];
     currentMouseScreen := 0%nat;
     blurEnabled := true;
     blurOpacity := 0.7%float;
     phase := Starting;
     appCalls := [] |}.

Definition withOverlayWindows (ws : list BrowserWindow) (m : Main) : Main :=
  {| overlayWindows := ws;
     currentMouseScreen := currentMouseScreen m;
     blurEnabled := blurEnabled m;
     blurOpacity := blurOpacity m;
     phase := phase m;
     appCalls := appCalls m |}.

Definition withBlurEnabled (b : bool) (m : Main) : Main :=
  {| overlayWindows := overlayWindows m;
     currentMouseScreen := currentMouseScreen m;
     blurEnabled := b;
     blurOpacity := blurOpacity m;
     phase := phase m;
     appCalls := appCalls m |}.

Definition withBlurOpacity (o : float) (m : Main) : Main :=
  {| overlayWindows := overlayWindows m;
     currentMouseScreen := currentMouseScreen m;
     blurEnabled := blurEnabled m;
     blurOpacity := o;
     phase := phase m;
     appCalls := appCalls m |}.

Definition withPhase (p : Phase) (m : Main) : Main :=
  {| overlayWindows := overlayWindows m;
     currentMouseScreen := currentMouseScreen m;
     blurEnabled := blurEnabled m;
     blurOpacity := blurOpacity m;
     phase := p;
     appCalls := appCalls m |}.

(** A call on [app] is appended to the log. *)
Definition call (c : AppCall) (m : Main) : Main :=
  {| overlayWindows := overlayWindows m;
     currentMouseScreen := currentMouseScreen m;
     blurEnabled := blurEnabled m;
     blurOpacity := blurOpacity m;
     phase := phase m;
     appCalls := appCalls m ++ [c] |}.

(** ** updateOverlays (lines 35-60) *)

(** The body of [overlayWindows.forEach((overlay, index) => ...)], lines
    53-58, for the focused index [focused]. *)
Definition updateOverlay (m : Main) (focused : nat) (index : nat)
    (overlay : BrowserWindow) : BrowserWindow :=
  if blurEnabled m && negb (index =? focused)%nat
  then show (send overlay {| channel := "set-blur"; blurred := true;
                             opacity := blurOpacity m |})
  else send overlay {| channel := "set-blur"; blurred := false;
                       opacity := blurOpacity m |}.

Definition updateOverlays (scr : Screen) (m : Main) : Main :=
  withOverlayWindows
    (imap (updateOverlay m (mouseScreenIndex scr)) (overlayWindows m)) m.

(** ** The tray menu (createTray, lines 62-91) *)

(** The four entries of the submenu 'Blur Intensity'. *)
Inductive Intensity := Light | Medium | Strong | VeryStrong.

(** The value each entry assigns to [blurOpacity] (lines 79-82). *)
Definition intensityOpacity (i : Intensity) : float :=
  match i with
  | Light => 0.3%float
  | Medium => 0.5%float
  | Strong => 0.7%float
  | VeryStrong => 0.9%float
  end.

(** ** What can happen to the process *)

(** [Ready]: the promise of [app.whenReady()] resolves.  [Interval]: the
    timer of [setInterval(updateOverlays, 100)] fires.  The three clicks are
    those of the tray menu; [ClickEnableBlur] carries [item.checked].
    [DisplayAdded] and [DisplayRemoved] are the events of [screen], and
    [WindowAllClosed] that of [app].  An event that runs [updateOverlays]
    carries what [screen] answers at that moment. *)
Inductive Event :=
  | Ready (scr : Screen)
  | Interval (scr : Screen)
  | ClickEnableBlur (checked : bool) (scr : Screen)
  | ClickIntensity (i : Intensity) (scr : Screen)
  | ClickQuit
  | DisplayAdded
  | DisplayRemoved
  | WindowAllClosed.

(** Lines 95-99: [displays.forEach(display => overlayWindows.push(...))]. *)
Definition pushOverlays (displays : list Display)
    (overlayWindows : list BrowserWindow) : list BrowserWindow :=
  foldl (fun ws display => ws ++ [createOverlayWindow display])
        overlayWindows displays.

(** The callback of [app.whenReady().then(...)]: the overlays are created,
    then the tray, the timer and the two display handlers are installed. *)
Definition whenReady (scr : Screen) (m : Main) : Main :=
  withPhase Running
    (withOverlayWindows (pushOverlays (getAllDisplays scr) (overlayWindows m)) m).

(** The handler of 'display-added' and of 'display-removed' (lines 107-115):
    [app.relaunch(); app.exit()]. *)
Definition relaunchAndExit (m : Main) : Main :=
  withPhase Restarting (call Exit (call Relaunch m)).

(** One event.  Nothing but [Ready] is handled before the handlers, the timer
    and the tray exist; the promise resolves once; a process that has exited
    handles nothing.  The handler of 'window-all-closed' only prevents the
    default. *)
Definition step (m : Main) (e : Event) : Main :=
  match phase m with
  | Starting =>
      match e with
      | Ready scr => whenReady scr m
      | _ => m
      end
  | Running =>
      match e with
      | Ready _ => m
      | Interval scr => updateOverlays scr m
      | ClickEnableBlur checked scr =>
          updateOverlays scr (withBlurEnabled checked m)
      | ClickIntensity i scr =>
          updateOverlays scr (withBlurOpacity (intensityOpacity i) m)
      | ClickQuit => withPhase Quitting (call Quit m)
      | DisplayAdded => relaunchAndExit m
      | DisplayRemoved => relaunchAndExit m
      | WindowAllClosed => m
      end
  | Restarting => m
  | Quitting => m
  end.

(** A sequence of events, oldest first. *)
Definition run (m : Main) (events : list Event) : Main :=
  foldl step m events.

(** ** Vocabulary of the specification, for stating the claims *)

(** The indices, in ascending order and counted from [index], of the displays
    whose bounds hold the cursor. *)
Fixpoint matchingFrom (currentCursor : Point) (displays : list Display)
    (index : nat) : list nat :=
  match displays with
  | [] => []
  | display :: rest =>
      if cursorInBounds currentCursor (bounds display)
      then index :: matchingFrom currentCursor rest (S index)
      else matchingFrom currentCursor rest (S index)
  end.

Definition matchingIndices (scr : Screen) : list nat :=
  matchingFrom (getCursorScreenPoint scr) (getAllDisplays scr) 0%nat.

(** Two rectangles share a point. *)
Definition rectsOverlap (a b : Rectangle) : bool :=
  (0 <? width a) && (0 <? height a) && (0 <? width b) && (0 <? height b) &&
  (x a <? x b + width b) && (x b <? x a + width a) &&
  (y a <? y b + height b) && (y b <? y a + height a).

(** No two displays of the list have overlapping bounds. *)
Fixpoint nonOverlapping (displays : list Display) : bool :=
  match displays with
  | [] => true
  | display :: rest =>
      forallb (fun other => negb (rectsOverlap (bounds display) (bounds other))) rest
      && nonOverlapping rest
  end.

(** A JavaScript number between 0 and 1, both included. *)
Definition inUnitInterval (o : float) : bool :=
  PrimFloat.leb 0%float o && PrimFloat.leb o 1%float.

(** The values the tray menu offers for the opacity. *)
Definition menuOpacities : list float :=
  [0.3%float; 0.5%float; 0.7%float; 0.9%float].

(** A process that runs, with one overlay per display of [sideBySideScreen]
    and the blur switched off. *)
Definition blurOffProcess : Main :=
  {| overlayWindows :=
       [ createOverlayWindow
           {| bounds := {| x := 0; y := 0; width := 1920; height := 1080 |} |};
         createOverlayWindow
           {| bounds := {| x := 1920; y := 0; width := 1920; height := 1080 |} |} ];
     currentMouseScreen := 0%nat;
     blurEnabled := false;
     blurOpacity := 0.5%float;
     phase := Running;
     appCalls := [] |}.

(** Two displays with the same bounds (a mirrored pair), the cursor inside
    both. *)
Definition mirroredScreen : Screen :=
  {| getAllDisplays :=
       [ {| bounds := {| x := 0; y := 0; width := 1920; height := 1080 |} |};
         {| bounds := {| x := 0; y := 0; width := 1920; height := 1080 |} |} ];
     getCursorScreenPoint := {| px := 100; py := 100 |} |}.

(** Two displays side by side, the cursor on the second. *)
Definition sideBySideScreen : Screen :=
  {| getAllDisplays :=
       [ {| bounds := {| x := 0; y := 0; width := 1920; height := 1080 |} |};
         {| bounds := {| x := 1920; y := 0; width := 1920; height := 1080 |} |} ];
     getCursorScreenPoint := {| px := 2000; py := 100 |} |}.

(** Two displays side by side, the cursor to the right of both. *)
Definition offScreen : Screen :=
  {| getAllDisplays :=
       [ {| bounds := {| x := 0; y := 0; width := 1920; height := 1080 |} |};
         {| bounds := {| x := 1920; y := 0; width := 1920; height := 1080 |} |} ];
     getCursorScreenPoint := {| px := 5000; py := 100 |} |}.

(** ** Vocabulary for further properties *)

(** What [createOverlayWindow] makes of a window besides its bounds: no frame,
    transparent, on top of everything at the 'screen-saver' level, absent from
    the taskbar, unable to take the focus or the mouse, showing overlay.html. *)
Definition overlayConfigured (w : BrowserWindow) : Prop :=
  frame w = false /\ transparent w = true /\ alwaysOnTop w = true /\
  skipTaskbar w = true /\ focusable w = false /\
  webPreferences w = {| nodeIntegration := true; contextIsolation := false |} /\
  ignoreMouseEvents w = true /\
  loadedFile w = "overlay.html"%string /\
  alwaysOnTopLevel w = "screen-saver"%string.

(** The message a run of [updateOverlays] in state [m], with [screen]
    answering [scr], sends to the overlay at [index]. *)
Definition setBlurMessage (m : Main) (scr : Screen) (index : nat) : IpcMessage :=
  {| channel := "set-blur";
     blurred := blurEnabled m && negb (index =? mouseScreenIndex scr)%nat;
     opacity := blurOpacity m |}.

(** Every message an overlay has received is a 'set-blur' with one of the
    opacities of the menu. *)
Definition messagesValid (w : BrowserWindow) : Prop :=
  Forall (fun msg => channel msg = "set-blur"%string /\
                     opacity msg ∈ menuOpacities) (sent w).

(** The latest message an overlay has received, if any, agrees with the blur
    state: it carries the current opacity, and its flag is off when the blur
    is switched off. *)
Definition upToDate (m : Main) (w : BrowserWindow) : Prop :=
  forall msg, last (sent w) = Some msg ->
    opacity msg = blurOpacity m /\ (blurEnabled m = false -> blurred msg = false).

(** The desktop moved by [(dx, dy)]: every display and the cursor. *)
Definition translateRect (dx dy : Z) (b : Rectangle) : Rectangle :=
  {| x := x b + dx; y := y b + dy; width := width b; height := height b |}.

Definition translateDisplay (dx dy : Z) (d : Display) : Display :=
  {| bounds := translateRect dx dy (bounds d) |}.

Definition translateScreen (dx dy : Z) (scr : Screen) : Screen :=
  {| getAllDisplays := translateDisplay dx dy <$> getAllDisplays scr;
     getCursorScreenPoint := {| px := px (getCursorScreenPoint scr) + dx;
                                py := py (getCursorScreenPoint scr) + dy |} |}.

(** A running process with the blur on and a single overlay, as after a start
    on one display. *)
Definition singleOverlayProcess : Main :=
  {| overlayWindows :=
       [ createOverlayWindow
           {| bounds := {| x := 0; y := 0; width := 1920; height := 1080 |} |} ];
     currentMouseScreen := 0%nat;
     blurEnabled := true;
     blurOpacity := 0.7%float;
     phase := Running;
     appCalls := [] |}.

(** A display followed by one of width 0 at the place of the cursor. *)
Definition degenerateScreen : Screen :=
  {| getAllDisplays :=
       [ {| bounds := {| x := 0; y := 0; width := 1920; height := 1080 |} |};
         {| bounds := {| x := 1920; y := 0; width := 0; height := 1080 |} |} ];
     getCursorScreenPoint := {| px := 1920; py := 100 |} |}.

(** ** Proof steps used more than once *)

(** Comparisons on [Z] and conjunctions of booleans, as propositions. *)
Ltac bool_to_prop :=
  repeat match goal with
  | H : _ && _ = true |- _ => apply andb_true_iff in H; destruct H
  | H : (_ <=? _) = true |- _ => apply Z.leb_le in H
  | H : (_ <? _) = true |- _ => apply Z.ltb_lt in H
  | |- _ && _ = true => apply andb_true_iff; split
  | |- (_ <=? _) = true => apply Z.leb_le
  | |- (_ <? _) = true => apply Z.ltb_lt
  end.

(** Membership in a list that is written out. *)
Ltac in_list := repeat first [apply list_elem_of_here | apply list_elem_of_further].

(** * Properties *)

(** ** The focused index *)

Lemma cursorInBounds_iff (p : Point) (b : Rectangle) :
  cursorInBounds p b = true <->
  (x b <= px p < x b + width b) /\ (y b <= py p < y b + height b).
Proof.
  unfold cursorInBounds. split.
  - intros H. bool_to_prop. lia.
  - intros [[? ?] [? ?]]. bool_to_prop; assumption.
Qed.

Section ForEachDisplay.
Variable currentCursor : Point.

(** What the loop leaves in [mouseScreenIndex]: the value it started with
    when no display holds the cursor, and otherwise the index of the last
    display that does. *)
Lemma forEachDisplay_spec (displays : list Display) :
  forall index start : nat,
    ((forall d, d ∈ displays ->
        cursorInBounds currentCursor (bounds d) = false) /\
     forEachDisplay currentCursor displays index start = start) \/
    (exists i d,
       forEachDisplay currentCursor displays index start = (index + i)%nat /\
       displays !! i = Some d /\
       cursorInBounds currentCursor (bounds d) = true /\
       forall j d', displays !! j = Some d' ->
                    cursorInBounds currentCursor (bounds d') = true ->
                    (j <= i)%nat).
Proof.
  induction displays as [|a rest IH]; intros index start; simpl.
  - left. split; [|reflexivity]. intros d Hd. inversion Hd.
  - destruct (IH (S index) (if cursorInBounds currentCursor (bounds a)
                            then index else start))
      as [[Hnone Heq]|(i & d & Heq & Hi & Hd & Hmax)].
    + destruct (cursorInBounds currentCursor (bounds a)) eqn:Ha.
      * right. exists 0%nat, a. rewrite Heq. repeat split; [lia|assumption|].
        intros [|j] d' Hj Hd'; [lia|]. simpl in Hj.
        apply list_elem_of_lookup_2 in Hj. rewrite (Hnone _ Hj) in Hd'.
        discriminate.
      * left. split; [|assumption].
        intros d Hd. apply elem_of_cons in Hd as [->|Hd]; auto.
    + right. exists (S i), d. rewrite Heq. repeat split; [lia|assumption..|].
      intros [|j] d' Hj Hd'; [lia|]. simpl in Hj.
      specialize (Hmax _ _ Hj Hd'). lia.
Qed.

(** The indices [matchingFrom] lists are those of the displays that hold
    the cursor. *)
Lemma elem_of_matchingFrom (displays : list Display) :
  forall (index j : nat),
    j ∈ matchingFrom currentCursor displays index <->
    exists i d, j = (index + i)%nat /\ displays !! i = Some d /\
                cursorInBounds currentCursor (bounds d) = true.
Proof.
  induction displays as [|a rest IH]; intros index j; simpl.
  - split; [intros H; inversion H|intros (i & d & _ & H & _); discriminate].
  - split.
    + intros H. destruct (cursorInBounds currentCursor (bounds a)) eqn:Ha.
      * apply elem_of_cons in H as [->|H].
        { exists 0%nat, a. repeat split; [lia|assumption]. }
        apply IH in H as (i & d & -> & Hi & Hd).
        exists (S i), d. repeat split; [lia|assumption..].
      * apply IH in H as (i & d & -> & Hi & Hd).
        exists (S i), d. repeat split; [lia|assumption..].
    + intros ([|i] & d & -> & Hi & Hd); simpl in Hi.
      * injection Hi as ->. rewrite Hd, Nat.add_0_r. apply list_elem_of_here.
      * assert (Hin : (S index + i)%nat
                      ∈ matchingFrom currentCursor rest (S index)).
        { apply IH. exists i, d. auto. }
        replace (index + S i)%nat with (S index + i)%nat by lia.
        destruct (cursorInBounds currentCursor (bounds a));
          [apply list_elem_of_further|]; exact Hin.
Qed.

(** The loop keeps the last of the matching indices. *)
Lemma forEachDisplay_last (displays : list Display) :
  forall index start : nat,
    forEachDisplay currentCursor displays index start =
    default start (last (matchingFrom currentCursor displays index)).
Proof.
  induction displays as [|a rest IH]; intros index start; simpl; [reflexivity|].
  rewrite IH. destruct (cursorInBounds currentCursor (bounds a)); [|reflexivity].
  rewrite last_cons.
  destruct (last (matchingFrom currentCursor rest (S index))); reflexivity.
Qed.
End ForEachDisplay.

Lemma mouseScreenIndex_last (scr : Screen) :
  mouseScreenIndex scr = default 0%nat (last (matchingIndices scr)).
Proof. apply forEachDisplay_last. Qed.

(** When some display holds the cursor, the focused index is the highest
    index of such a display. *)
Lemma mouseScreenIndex_highest_match (scr : Screen) (i : nat) (di : Display) :
  getAllDisplays scr !! i = Some di ->
  cursorInBounds (getCursorScreenPoint scr) (bounds di) = true ->
  (exists d, getAllDisplays scr !! mouseScreenIndex scr = Some d /\
             cursorInBounds (getCursorScreenPoint scr) (bounds d) = true) /\
  (forall k d, getAllDisplays scr !! k = Some d ->
               cursorInBounds (getCursorScreenPoint scr) (bounds d) = true ->
               (k <= mouseScreenIndex scr)%nat).
Proof.
  intros Hi Hdi. unfold mouseScreenIndex.
  destruct (forEachDisplay_spec (getCursorScreenPoint scr) (getAllDisplays scr) 0 0)
    as [[Hnone _]|(f & d & -> & Hf & Hd & Hmax)].
  - apply list_elem_of_lookup_2 in Hi. rewrite (Hnone _ Hi) in Hdi. discriminate.
  - simpl. split; [exists d; auto|exact Hmax].
Qed.

(** [rectsOverlap] says what it is meant to: the two rectangles have a point
    in common. *)
Lemma rectsOverlap_iff (a b : Rectangle) :
  rectsOverlap a b = true <->
  exists p, cursorInBounds p a = true /\ cursorInBounds p b = true.
Proof.
  split.
  - intros H. unfold rectsOverlap in H. bool_to_prop.
    exists {| px := Z.max (x a) (x b); py := Z.max (y a) (y b) |}.
    split; apply cursorInBounds_iff; simpl; lia.
  - intros (p & Ha & Hb).
    apply cursorInBounds_iff in Ha. apply cursorInBounds_iff in Hb.
    unfold rectsOverlap. bool_to_prop; lia.
Qed.

Lemma rectsOverlap_sym (a b : Rectangle) : rectsOverlap a b = rectsOverlap b a.
Proof.
  apply eq_true_iff_eq. rewrite !rectsOverlap_iff.
  split; intros (p & ? & ?); exists p; auto.
Qed.

(** In a list that passes [nonOverlapping], two displays at different
    positions do not overlap. *)
Lemma nonOverlapping_lookup (displays : list Display) :
  nonOverlapping displays = true ->
  forall i j a b, i <> j ->
    displays !! i = Some a -> displays !! j = Some b ->
    rectsOverlap (bounds a) (bounds b) = false.
Proof.
  induction displays as [|d rest IH]; intros Hno i j a b Hne Hi Hj.
  - discriminate.
  - simpl in Hno. apply andb_true_iff in Hno as [Hhead Hrest].
    rewrite forallb_forall in Hhead.
    destruct i as [|i], j as [|j]; simpl in Hi, Hj.
    + congruence.
    + injection Hi as ->.
      apply list_elem_of_lookup_2, list_elem_of_In, Hhead, negb_true_iff in Hj.
      exact Hj.
    + injection Hj as ->.
      apply list_elem_of_lookup_2, list_elem_of_In, Hhead, negb_true_iff in Hi.
      rewrite rectsOverlap_sym. exact Hi.
    + apply (IH Hrest i j); auto.
Qed.

(** C1 (as the code has it): when the cursor lies inside the bounds of more
    than one display, the focused index that [updateOverlays] computes is the
    highest index of a display holding the cursor, the last of the matching
    indices; the computation is a total function, so nothing is raised. *)
Theorem mouseScreenIndex_overlap_last_match
    (scr : Screen) (i j : nat) (di dj : Display) :
  i <> j ->
  getAllDisplays scr !! i = Some di ->
  getAllDisplays scr !! j = Some dj ->
  cursorInBounds (getCursorScreenPoint scr) (bounds di) = true ->
  cursorInBounds (getCursorScreenPoint scr) (bounds dj) = true ->
  (exists d, getAllDisplays scr !! mouseScreenIndex scr = Some d /\
             cursorInBounds (getCursorScreenPoint scr) (bounds d) = true) /\
  (forall k d, getAllDisplays scr !! k = Some d ->
               cursorInBounds (getCursorScreenPoint scr) (bounds d) = true ->
               (k <= mouseScreenIndex scr)%nat) /\
  last (matchingIndices scr) = Some (mouseScreenIndex scr).
Proof.
  intros _ Hi _ Hdi _.
  destruct (mouseScreenIndex_highest_match scr i di Hi Hdi) as [Hhit Hmax].
  split; [exact Hhit|]. split; [exact Hmax|].
  rewrite mouseScreenIndex_last.
  assert (Hin : i ∈ matchingIndices scr).
  { apply elem_of_matchingFrom. exists i, di. auto. }
  destruct (matchingIndices scr) as [|k l] eqn:Hl using rev_ind.
  - inversion Hin.
  - rewrite last_snoc. reflexivity.
Qed.

Lemma mouseScreenIndex_overlap_last_match_witness :
  last (matchingIndices mirroredScreen) = Some (mouseScreenIndex mirroredScreen).
Proof.
  refine (proj2 (proj2 (mouseScreenIndex_overlap_last_match mirroredScreen 0%nat 1%nat
    {| bounds := {| x := 0; y := 0; width := 1920; height := 1080 |} |}
    {| bounds := {| x := 0; y := 0; width := 1920; height := 1080 |} |}
    _ _ _ _ _))); [lia|reflexivity..].
Defined.

(** C1 (as the specification states it) fails: on two displays with the same
    bounds and the cursor inside both, the lowest matching index is 0 and the
    focused index is 1. *)
Lemma mouseScreenIndex_not_first_match :
  matchingIndices mirroredScreen = [0; 1]%nat /\
  mouseScreenIndex mirroredScreen = 1%nat /\
  head (matchingIndices mirroredScreen) <> Some (mouseScreenIndex mirroredScreen).
Proof. repeat split. discriminate. Qed.

(** C5: when the cursor lies inside the bounds of no display, whatever the
    displays (none at all included), the focused index that [updateOverlays]
    computes is 0. *)
Theorem mouseScreenIndex_outside (scr : Screen) :
  (forall d, d ∈ getAllDisplays scr ->
     cursorInBounds (getCursorScreenPoint scr) (bounds d) = false) ->
  mouseScreenIndex scr = 0%nat.
Proof.
  intros Hnone. unfold mouseScreenIndex.
  destruct (forEachDisplay_spec (getCursorScreenPoint scr) (getAllDisplays scr) 0 0)
    as [[_ Heq]|(f & d & _ & Hf & Hd & _)]; [exact Heq|].
  apply list_elem_of_lookup_2 in Hf. rewrite (Hnone _ Hf) in Hd. discriminate.
Qed.

Lemma mouseScreenIndex_outside_witness : mouseScreenIndex offScreen = 0%nat.
Proof.
  apply (mouseScreenIndex_outside offScreen).
  intros d Hd. simpl in Hd.
  repeat (apply elem_of_cons in Hd as [->|Hd]; [reflexivity|]).
  inversion Hd.
Defined.

(** C6: a display holds the cursor when [x] is in [[bx, bx+bw)] and [y] in
    [[by, by+bh)]; and when no two displays overlap and the cursor is inside
    the display at index [i], the focused index is [i]. *)
Theorem mouseScreenIndex_half_open_unique :
  (forall (p : Point) (b : Rectangle),
     cursorInBounds p b = true <->
     (x b <= px p < x b + width b) /\ (y b <= py p < y b + height b)) /\
  (forall (scr : Screen) (i : nat) (r : Display),
     nonOverlapping (getAllDisplays scr) = true ->
     getAllDisplays scr !! i = Some r ->
     cursorInBounds (getCursorScreenPoint scr) (bounds r) = true ->
     mouseScreenIndex scr = i).
Proof.
  split; [exact cursorInBounds_iff|].
  intros scr i r Hno Hi Hr.
  destruct (mouseScreenIndex_highest_match scr i r Hi Hr) as [(d & Hf & Hd) _].
  destruct (decide (mouseScreenIndex scr = i)) as [|Hne]; [assumption|].
  pose proof (nonOverlapping_lookup _ Hno _ _ _ _ Hne Hf Hi) as Hdisj.
  assert (Hov : rectsOverlap (bounds d) (bounds r) = true).
  { apply rectsOverlap_iff. exists (getCursorScreenPoint scr). auto. }
  congruence.
Qed.

Lemma mouseScreenIndex_half_open_unique_witness :
  mouseScreenIndex sideBySideScreen = 1%nat.
Proof.
  apply (proj2 mouseScreenIndex_half_open_unique sideBySideScreen 1%nat
    {| bounds := {| x := 1920; y := 0; width := 1920; height := 1080 |} |});
    reflexivity.
Defined.

(** ** What a run of updateOverlays does to the overlays *)

Lemma updateOverlays_lookup (scr : Screen) (m : Main) (i : nat) :
  overlayWindows (updateOverlays scr m) !! i =
  updateOverlay m (mouseScreenIndex scr) i <$> overlayWindows m !! i.
Proof. unfold updateOverlays. simpl. apply list_lookup_imap. Qed.

Lemma updateOverlays_length (scr : Screen) (m : Main) :
  length (overlayWindows (updateOverlays scr m)) = length (overlayWindows m).
Proof. unfold updateOverlays. simpl. apply length_imap. Qed.

(** One overlay: one message more, carrying the computed flag and the current
    opacity; the window is shown when the flag is set and otherwise left as it
    was; its bounds stay. *)
Lemma updateOverlay_effect (m : Main) (focused index : nat) (w : BrowserWindow) :
  let b := blurEnabled m && negb (index =? focused)%nat in
  sent (updateOverlay m focused index w) =
    sent w ++ [{| channel := "set-blur"; blurred := b; opacity := blurOpacity m |}] /\
  visible (updateOverlay m focused index w) = b || visible w /\
  winBounds (updateOverlay m focused index w) = winBounds w.
Proof.
  unfold updateOverlay.
  destruct (blurEnabled m && negb (index =? focused)%nat); simpl; auto.
Qed.

(** The timer's callback is [updateOverlays] itself: a tick of a running
    process is one run of it on what [screen] answers then. *)
Lemma step_Interval (scr : Screen) (m : Main) :
  phase m = Running -> step m (Interval scr) = updateOverlays scr m.
Proof. intros Hp. unfold step. rewrite Hp. reflexivity. Qed.

(** C2: a run of [updateOverlays] sends to the overlay at every index [i]
    one message whose flag is [blurEnabled && i != mouseScreenIndex]; with
    [blurEnabled] false the flag is false, whatever the focused index. *)
Theorem updateOverlays_blurred_flag
    (scr : Screen) (m : Main) (i : nat) (w : BrowserWindow) :
  overlayWindows m !! i = Some w ->
  exists w' msg,
    overlayWindows (updateOverlays scr m) !! i = Some w' /\
    sent w' = sent w ++ [msg] /\
    blurred msg = blurEnabled m && negb (i =? mouseScreenIndex scr)%nat /\
    (blurEnabled m = false -> blurred msg = false).
Proof.
  intros Hw.
  destruct (updateOverlay_effect m (mouseScreenIndex scr) i w) as (Hsent & _ & _).
  eexists _, _. rewrite updateOverlays_lookup, Hw. simpl.
  split; [reflexivity|]. split; [exact Hsent|]. simpl.
  split; [reflexivity|]. intros ->. reflexivity.
Qed.

Lemma updateOverlays_blurred_flag_witness :
  exists w' msg,
    overlayWindows (updateOverlays sideBySideScreen blurOffProcess) !! 0%nat = Some w' /\
    sent w' = [] ++ [msg] /\
    blurred msg = false && negb (0 =? mouseScreenIndex sideBySideScreen)%nat /\
    (false = false -> blurred msg = false).
Proof.
  apply (updateOverlays_blurred_flag sideBySideScreen blurOffProcess 0%nat
    (createOverlayWindow
       {| bounds := {| x := 0; y := 0; width := 1920; height := 1080 |} |})).
  reflexivity.
Defined.

(** C7: a run of [updateOverlays] sends to every overlay, whatever flag it
    computed for it, exactly one 'set-blur' message, and the message carries
    the current [blurOpacity]; no overlay is added or dropped. *)
Theorem updateOverlays_pushes_opacity
    (scr : Screen) (m : Main) (i : nat) (w : BrowserWindow) :
  overlayWindows m !! i = Some w ->
  length (overlayWindows (updateOverlays scr m)) = length (overlayWindows m) /\
  exists w' msg,
    overlayWindows (updateOverlays scr m) !! i = Some w' /\
    sent w' = sent w ++ [msg] /\
    channel msg = "set-blur"%string /\
    opacity msg = blurOpacity m.
Proof.
  intros Hw. split; [apply updateOverlays_length|].
  destruct (updateOverlay_effect m (mouseScreenIndex scr) i w) as (Hsent & _ & _).
  eexists _, _. rewrite updateOverlays_lookup, Hw. simpl.
  split; [reflexivity|]. split; [exact Hsent|]. split; reflexivity.
Qed.

Lemma updateOverlays_pushes_opacity_witness :
  exists w' msg,
    overlayWindows (updateOverlays sideBySideScreen blurOffProcess) !! 1%nat = Some w' /\
    sent w' = [] ++ [msg] /\
    channel msg = "set-blur"%string /\
    opacity msg = 0.5%float.
Proof.
  apply (updateOverlays_pushes_opacity sideBySideScreen blurOffProcess 1%nat
    (createOverlayWindow
       {| bounds := {| x := 1920; y := 0; width := 1920; height := 1080 |} |})).
  reflexivity.
Defined.

(** ** The process over a sequence of events *)

Lemma pushOverlays_app (displays : list Display) :
  forall ws, pushOverlays displays ws = ws ++ (createOverlayWindow <$> displays).
Proof.
  unfold pushOverlays.
  induction displays as [|d rest IH]; intros ws; simpl.
  - symmetry. apply app_nil_r.
  - rewrite IH, <- app_assoc. reflexivity.
Qed.

(** A process that has relaunched and exited, or quit, handles nothing. *)
Lemma run_terminated (m : Main) (events : list Event) :
  phase m = Restarting \/ phase m = Quitting -> run m events = m.
Proof.
  intros Hp. induction events as [|e rest IH]; simpl; [reflexivity|].
  replace (step m e) with m; [exact IH|].
  unfold step. destruct Hp as [-> | ->]; reflexivity.
Qed.

(** No event hides an overlay or removes it from its position. *)
Lemma step_keeps_shown (m : Main) (e : Event) (i : nat) (w : BrowserWindow) :
  overlayWindows m !! i = Some w ->
  exists w', overlayWindows (step m e) !! i = Some w' /\
             (visible w = true -> visible w' = true).
Proof.
  intros Hw.
  assert (Hsame : exists w', overlayWindows m !! i = Some w' /\
                             (visible w = true -> visible w' = true))
    by (exists w; auto).
  assert (Hupd : forall scr m0, overlayWindows m0 = overlayWindows m ->
            exists w', overlayWindows (updateOverlays scr m0) !! i = Some w' /\
                       (visible w = true -> visible w' = true)).
  { intros scr m0 Hm0. rewrite updateOverlays_lookup, Hm0, Hw. simpl.
    eexists. split; [reflexivity|].
    destruct (updateOverlay_effect m0 (mouseScreenIndex scr) i w) as (_ & -> & _).
    intros ->. apply orb_true_r. }
  unfold step.
  destruct (phase m), e; try exact Hsame; try (apply Hupd; reflexivity).
  simpl. rewrite pushOverlays_app. exists w. split; [|auto].
  apply lookup_app_l_Some. exact Hw.
Qed.

Lemma run_keeps_shown (events : list Event) :
  forall (m : Main) (i : nat) (w : BrowserWindow),
    overlayWindows m !! i = Some w -> visible w = true ->
    exists w', overlayWindows (run m events) !! i = Some w' /\ visible w' = true.
Proof.
  induction events as [|e rest IH]; intros m i w Hw Hv; simpl.
  - exists w. auto.
  - destruct (step_keeps_shown m e i w Hw) as (w1 & Hw1 & Hv1).
    apply (IH _ _ w1); auto.
Qed.

(** C9: a run of [updateOverlays] leaves the visibility of every overlay it
    sends [blurred = false] as it was, and no sequence of events hides an
    overlay that is shown. *)
Theorem updateOverlays_never_hides :
  (forall (scr : Screen) (m : Main) (i : nat) (w : BrowserWindow),
     overlayWindows m !! i = Some w ->
     blurEnabled m && negb (i =? mouseScreenIndex scr)%nat = false ->
     exists w', overlayWindows (updateOverlays scr m) !! i = Some w' /\
                visible w' = visible w) /\
  (forall (m : Main) (events : list Event) (i : nat) (w : BrowserWindow),
     overlayWindows m !! i = Some w -> visible w = true ->
     exists w', overlayWindows (run m events) !! i = Some w' /\
                visible w' = true).
Proof.
  split.
  - intros scr m i w Hw Hb.
    rewrite updateOverlays_lookup, Hw. simpl. eexists. split; [reflexivity|].
    destruct (updateOverlay_effect m (mouseScreenIndex scr) i w) as (_ & -> & _).
    simpl. rewrite Hb. reflexivity.
  - intros m events. apply run_keeps_shown.
Qed.

Lemma updateOverlays_never_hides_witness :
  (exists w',
     overlayWindows (updateOverlays sideBySideScreen blurOffProcess) !! 0%nat
       = Some w' /\
     visible w' = true) /\
  (exists w',
     overlayWindows
       (run blurOffProcess
          [Interval sideBySideScreen; ClickEnableBlur true offScreen;
           ClickIntensity Light sideBySideScreen; DisplayRemoved;
           Interval offScreen]) !! 0%nat = Some w' /\
     visible w' = true).
Proof.
  split.
  - apply (proj1 updateOverlays_never_hides sideBySideScreen blurOffProcess 0%nat
      (createOverlayWindow
         {| bounds := {| x := 0; y := 0; width := 1920; height := 1080 |} |}));
      reflexivity.
  - apply (proj2 updateOverlays_never_hides blurOffProcess _ 0%nat
      (createOverlayWindow
         {| bounds := {| x := 0; y := 0; width := 1920; height := 1080 |} |}));
      reflexivity.
Defined.

(** Once the overlays are created, no event changes how many there are or
    where they are: the process never leaves [Running] for [Starting], and
    outside [Starting] the windows' bounds stay. *)
Lemma step_keeps_bounds (m : Main) (e : Event) :
  phase m <> Starting ->
  phase (step m e) <> Starting /\
  winBounds <$> overlayWindows (step m e) = winBounds <$> overlayWindows m.
Proof.
  intros Hp.
  assert (Hupd : forall scr m0, phase m0 = Running ->
            overlayWindows m0 = overlayWindows m ->
            phase (updateOverlays scr m0) <> Starting /\
            winBounds <$> overlayWindows (updateOverlays scr m0) =
            winBounds <$> overlayWindows m).
  { intros scr m0 Hph Hm0. split; [simpl; rewrite Hph; discriminate|].
    apply list_eq. intros i.
    rewrite !list_lookup_fmap, updateOverlays_lookup, Hm0.
    destruct (overlayWindows m !! i) as [w|]; [|reflexivity]. simpl.
    destruct (updateOverlay_effect m0 (mouseScreenIndex scr) i w) as (_ & _ & ->).
    reflexivity. }
  unfold step. destruct (phase m) eqn:Hph, e;
    try (split; [rewrite ?Hph; discriminate|reflexivity]);
    try (apply Hupd; [exact Hph|reflexivity]).
  all: congruence.
Qed.

Lemma run_keeps_bounds (events : list Event) :
  forall m : Main,
    phase m <> Starting ->
    winBounds <$> overlayWindows (run m events) = winBounds <$> overlayWindows m.
Proof.
  induction events as [|e rest IH]; intros m Hp; simpl; [reflexivity|].
  destruct (step_keeps_bounds m e Hp) as [Hp' Heq].
  rewrite (IH _ Hp'). exact Heq.
Qed.

(** C3: once a fresh process has created its overlays for the displays it
    read at startup, and after any further events, there are as many overlays
    as displays and the overlay at every index has the bounds of the display
    at that index ([None] on both sides past the end). *)
Theorem whenReady_one_overlay_per_display (scr : Screen) (events : list Event) :
  let m := run initial (Ready scr :: events) in
  length (overlayWindows m) = length (getAllDisplays scr) /\
  forall i : nat,
    winBounds <$> overlayWindows m !! i = bounds <$> getAllDisplays scr !! i.
Proof.
  assert (Hmap : winBounds <$> overlayWindows (run initial (Ready scr :: events))
                 = bounds <$> getAllDisplays scr).
  { simpl. rewrite run_keeps_bounds by discriminate.
    simpl. rewrite pushOverlays_app. simpl.
    rewrite <- list_fmap_compose. apply list_fmap_ext.
    intros _ [[bx by_ bw bh]] _. reflexivity. }
  simpl. split.
  - rewrite <- (length_fmap winBounds), <- (length_fmap bounds). f_equal. exact Hmap.
  - intros i. rewrite <- !list_lookup_fmap. f_equal. exact Hmap.
Qed.

(** C4: a display added or removed while the process runs makes it call
    [app.relaunch()] and then [app.exit()], once each and in this order; the
    process is then in [Restarting], and whatever events follow, it stays as
    it is: no further call, no return to [Running]. *)
Theorem topology_change_relaunches_once (m : Main) (e : Event) :
  phase m = Running ->
  e = DisplayAdded \/ e = DisplayRemoved ->
  appCalls (step m e) = appCalls m ++ [Relaunch; Exit] /\
  phase (step m e) = Restarting /\
  forall events : list Event,
    run (step m e) events = step m e /\
    phase (run (step m e) events) = Restarting /\
    appCalls (run (step m e) events) = appCalls m ++ [Relaunch; Exit].
Proof.
  intros Hp He.
  assert (Hstep : step m e = relaunchAndExit m).
  { unfold step. rewrite Hp. destruct He as [-> | ->]; reflexivity. }
  rewrite Hstep.
  assert (Hcalls : appCalls (relaunchAndExit m) = appCalls m ++ [Relaunch; Exit]).
  { simpl. rewrite <- app_assoc. reflexivity. }
  split; [exact Hcalls|]. split; [reflexivity|].
  intros events. rewrite run_terminated by (left; reflexivity).
  split; [reflexivity|]. split; [reflexivity|exact Hcalls].
Qed.

Lemma topology_change_relaunches_once_witness :
  appCalls (step blurOffProcess DisplayRemoved) = [] ++ [Relaunch; Exit] /\
  phase (step blurOffProcess DisplayRemoved) = Restarting /\
  forall events : list Event,
    run (step blurOffProcess DisplayRemoved) events = step blurOffProcess DisplayRemoved /\
    phase (run (step blurOffProcess DisplayRemoved) events) = Restarting /\
    appCalls (run (step blurOffProcess DisplayRemoved) events) = [] ++ [Relaunch; Exit].
Proof.
  apply (topology_change_relaunches_once blurOffProcess DisplayRemoved);
    [reflexivity|right; reflexivity].
Defined.

(** ** The blur state *)

(** No event takes [blurOpacity] out of the values of the tray menu. *)
Lemma step_menuOpacities (m : Main) (e : Event) :
  blurOpacity m ∈ menuOpacities -> blurOpacity (step m e) ∈ menuOpacities.
Proof.
  intros Hm. unfold step. destruct (phase m), e; try exact Hm.
  simpl. unfold menuOpacities. destruct i; simpl; in_list.
Qed.

Lemma run_menuOpacities (events : list Event) :
  forall m : Main,
    blurOpacity m ∈ menuOpacities -> blurOpacity (run m events) ∈ menuOpacities.
Proof.
  induction events as [|e rest IH]; intros m Hm; simpl; [exact Hm|].
  apply IH, step_menuOpacities, Hm.
Qed.

Lemma menuOpacities_inUnitInterval (o : float) :
  o ∈ menuOpacities -> inUnitInterval o = true.
Proof.
  unfold menuOpacities. intros Ho.
  repeat (apply elem_of_cons in Ho as [->|Ho]; [reflexivity|]).
  inversion Ho.
Qed.

(** C8: from the start of the process and after any sequence of events,
    [blurOpacity] is between 0 and 1; each entry of the intensity menu assigns
    a value between 0 and 1; a click on 'Enable Blur' leaves [blurOpacity] as
    it is and a click on an intensity leaves [blurEnabled] as it is. *)
Theorem blurOpacity_in_unit_interval :
  (forall events : list Event,
     inUnitInterval (blurOpacity (run initial events)) = true) /\
  (forall i : Intensity, inUnitInterval (intensityOpacity i) = true) /\
  (forall (m : Main) (checked : bool) (scr : Screen),
     blurOpacity (step m (ClickEnableBlur checked scr)) = blurOpacity m) /\
  (forall (m : Main) (i : Intensity) (scr : Screen),
     blurEnabled (step m (ClickIntensity i scr)) = blurEnabled m).
Proof.
  split; [|split; [|split]].
  - intros events. apply menuOpacities_inUnitInterval, run_menuOpacities.
    unfold menuOpacities. simpl. in_list.
  - intros []; reflexivity.
  - intros m checked scr. unfold step. destruct (phase m); reflexivity.
  - intros m i scr. unfold step. destruct (phase m); reflexivity.
Qed.

(** C10: a process starts with [blurEnabled = true] and [blurOpacity = 0.7],
    and after any sequence of events [blurOpacity] is one of 0.3, 0.5, 0.7
    and 0.9. *)
Theorem blurOpacity_initial_and_menu_values :
  blurEnabled initial = true /\
  blurOpacity initial = 0.7%float /\
  forall events : list Event,
    blurOpacity (run initial events) ∈ [0.3%float; 0.5%float; 0.7%float; 0.9%float].
Proof.
  split; [reflexivity|]. split; [reflexivity|].
  intros events. apply (run_menuOpacities events initial).
  unfold menuOpacities. simpl. in_list.
Qed.

(** * Further properties of the code *)

(** ** The shape of a step *)

(** A property of the process that holds at the start and that every event
    keeps holds after every sequence of events. *)
Section Invariant.
Variable P : Main -> Prop.
Hypothesis P_step : forall m e, P m -> P (step m e).

Lemma run_invariant (events : list Event) :
  forall m : Main, P m -> P (run m events).
Proof.
  induction events as [|e rest IH]; intros m Hm; simpl; [exact Hm|].
  apply IH, P_step, Hm.
Qed.
End Invariant.

(** What an event can do: nothing; create the overlays; run [updateOverlays],
    after a setting of [blurEnabled] or [blurOpacity] from the menu or after
    none; relaunch and exit; quit. *)
Lemma step_cases (m : Main) (e : Event) :
  step m e = m \/
  (phase m = Starting /\ exists scr, step m e = whenReady scr m) \/
  (phase m = Running /\
   exists scr m0,
     step m e = updateOverlays scr m0 /\
     (m0 = m \/ (exists c, m0 = withBlurEnabled c m) \/
      (exists i, m0 = withBlurOpacity (intensityOpacity i) m))) \/
  (phase m = Running /\ step m e = relaunchAndExit m) \/
  (phase m = Running /\ step m e = withPhase Quitting (call Quit m)).
Proof.
  unfold step. destruct (phase m) eqn:Hp; destruct e.
  all: try (left; reflexivity).
  all: try (right; left; split; [reflexivity|]; eexists; reflexivity).
  all: try (right; right; left; split; [reflexivity|]; eexists _, _;
            split; [reflexivity|];
            first [ left; reflexivity
                  | right; left; eexists; reflexivity
                  | right; right; eexists; reflexivity ]).
  all: try (right; right; right; left; split; reflexivity).
  all: right; right; right; right; split; reflexivity.
Qed.

(** A property of windows that [updateOverlay] establishes holds of every
    overlay after a run of [updateOverlays]. *)
Lemma updateOverlays_Forall (P : BrowserWindow -> Prop) (scr : Screen) (m : Main) :
  (forall k w, overlayWindows m !! k = Some w ->
               P (updateOverlay m (mouseScreenIndex scr) k w)) ->
  Forall P (overlayWindows (updateOverlays scr m)).
Proof.
  intros HP. apply Forall_lookup. intros k w' Hk.
  rewrite updateOverlays_lookup in Hk.
  destruct (overlayWindows m !! k) as [w|] eqn:Hw; [|discriminate].
  simpl in Hk. injection Hk as <-. apply (HP k w Hw).
Qed.

Lemma updateOverlay_sent (m : Main) (scr : Screen) (k : nat) (w : BrowserWindow) :
  sent (updateOverlay m (mouseScreenIndex scr) k w)
  = sent w ++ [setBlurMessage m scr k].
Proof. apply updateOverlay_effect. Qed.

Lemma updateOverlay_configured (m : Main) (f k : nat) (w : BrowserWindow) :
  overlayConfigured w -> overlayConfigured (updateOverlay m f k w).
Proof.
  unfold updateOverlay.
  destruct (blurEnabled m && negb (k =? f)%nat); intros H; exact H.
Qed.

Lemma createOverlayWindow_configured (d : Display) :
  overlayConfigured (createOverlayWindow d).
Proof. repeat split. Qed.

(** The three states [updateOverlays] can be run from within a step have the
    overlays of the state before. *)
Lemma menu_setting_overlays (m m0 : Main) :
  m0 = m \/ (exists c, m0 = withBlurEnabled c m) \/
  (exists i, m0 = withBlurOpacity (intensityOpacity i) m) ->
  overlayWindows m0 = overlayWindows m /\ phase m0 = phase m /\
  appCalls m0 = appCalls m.
Proof. intros [-> | [[c ->] | [i ->]]]; auto. Qed.

(** ** Invariants of the process *)

(** X1: after any sequence of events, every overlay of the process is still
    the click-through window [createOverlayWindow] made: frameless,
    transparent, always on top at the 'screen-saver' level, off the taskbar,
    not focusable, ignoring the mouse, showing overlay.html. *)
Theorem overlays_stay_configured (events : list Event) :
  Forall overlayConfigured (overlayWindows (run initial events)).
Proof.
  apply (run_invariant (fun m => Forall overlayConfigured (overlayWindows m)));
    [|constructor].
  intros m e Hm.
  destruct (step_cases m e)
    as [-> | [[_ [scr ->]] | [[_ (scr & m0 & -> & Hm0)] | [[_ ->] | [_ ->]]]]];
    try exact Hm.
  - simpl. rewrite pushOverlays_app. apply Forall_app. split; [exact Hm|].
    apply Forall_fmap, Forall_forall. intros d _.
    apply createOverlayWindow_configured.
  - apply menu_setting_overlays in Hm0 as (Hws & _ & _).
    apply updateOverlays_Forall. intros k w Hk.
    apply updateOverlay_configured. rewrite Hws in Hk.
    exact (Forall_lookup_1 _ _ _ _ Hm Hk).
Qed.

(** X2: after any sequence of events, every message any overlay has received
    is a 'set-blur' whose opacity is one of the four of the menu, hence
    between 0 and 1. *)
Theorem overlays_receive_valid_messages (events : list Event) :
  Forall (fun w => messagesValid w /\
                   Forall (fun msg => inUnitInterval (opacity msg) = true) (sent w))
         (overlayWindows (run initial events)).
Proof.
  assert (Hinv : blurOpacity (run initial events) ∈ menuOpacities /\
                 Forall messagesValid (overlayWindows (run initial events))).
  { apply (run_invariant (fun m => blurOpacity m ∈ menuOpacities /\
                                   Forall messagesValid (overlayWindows m))).
    - intros m e [Hop Hm].
      destruct (step_cases m e)
        as [-> | [[_ [scr ->]] | [[_ (scr & m0 & -> & Hm0)] | [[_ ->] | [_ ->]]]]];
        try (split; assumption).
      + split; [exact Hop|]. simpl. rewrite pushOverlays_app.
        apply Forall_app. split; [exact Hm|].
        apply Forall_fmap, Forall_forall. intros d _. constructor.
      + assert (Hop0 : blurOpacity m0 ∈ menuOpacities).
        { destruct Hm0 as [-> | [[c ->] | [i ->]]]; try exact Hop.
          simpl. unfold menuOpacities. destruct i; simpl; in_list. }
        apply menu_setting_overlays in Hm0 as (Hws & _ & _).
        split; [exact Hop0|].
        apply updateOverlays_Forall. intros k w Hk. rewrite Hws in Hk.
        unfold messagesValid. rewrite updateOverlay_sent.
        apply Forall_app. split; [exact (Forall_lookup_1 _ _ _ _ Hm Hk)|].
        constructor; [|constructor]. split; [reflexivity|exact Hop0].
    - split; [|constructor]. unfold menuOpacities. simpl. in_list. }
  destruct Hinv as [_ Hall].
  eapply Forall_impl; [exact Hall|].
  intros w Hw. split; [exact Hw|].
  eapply Forall_impl; [exact Hw|].
  intros msg [_ Hin]. apply menuOpacities_inUnitInterval, Hin.
Qed.

(** X3: after any sequence of events, the latest message of every overlay
    that has received one carries the current [blurOpacity], and its flag is
    off when [blurEnabled] is off: a change made from the menu never leaves an
    overlay with an older setting. *)
Theorem overlays_up_to_date (events : list Event) :
  Forall (upToDate (run initial events)) (overlayWindows (run initial events)).
Proof.
  apply (run_invariant (fun m => Forall (upToDate m) (overlayWindows m)));
    [|constructor].
  intros m e Hm.
  destruct (step_cases m e)
    as [-> | [[_ [scr ->]] | [[_ (scr & m0 & -> & Hm0)] | [[_ ->] | [_ ->]]]]];
    try exact Hm.
  - simpl. rewrite pushOverlays_app. apply Forall_app. split; [exact Hm|].
    apply Forall_fmap, Forall_forall. intros d _ msg Hmsg. discriminate.
  - apply updateOverlays_Forall. intros k w _ msg Hmsg.
    rewrite updateOverlay_sent, last_snoc in Hmsg. injection Hmsg as <-.
    simpl. split; [reflexivity|]. intros ->. reflexivity.
Qed.

(** X4: after any sequence of events, all overlays have received the same
    number of messages: no run of [updateOverlays] skips an overlay. *)
Theorem overlays_same_message_count (events : list Event) :
  exists n : nat,
    Forall (fun w => length (sent w) = n) (overlayWindows (run initial events)).
Proof.
  assert (Hinv :
    (fun m => (phase m = Starting /\ overlayWindows m = []) \/
              (phase m <> Starting /\
               exists n, Forall (fun w => length (sent w) = n) (overlayWindows m)))
      (run initial events)).
  { apply run_invariant; [|left; split; reflexivity].
    intros m e Hm.
    destruct (step_cases m e)
      as [-> | [[Hp [scr ->]] | [[Hp (scr & m0 & -> & Hm0)] | [[Hp ->] | [Hp ->]]]]];
      try exact Hm.
    - right. split; [discriminate|]. exists 0%nat.
      destruct Hm as [[_ Hws] | [Hne _]]; [|congruence].
      simpl. rewrite Hws, pushOverlays_app. simpl.
      apply Forall_fmap, Forall_forall. intros d _. reflexivity.
    - destruct Hm as [[Hs _] | [_ [n Hn]]]; [congruence|].
      apply menu_setting_overlays in Hm0 as (Hws & Hph & _).
      right. split; [simpl; rewrite Hph, Hp; discriminate|].
      exists (S n). apply updateOverlays_Forall. intros k w Hk.
      rewrite Hws in Hk. rewrite updateOverlay_sent, length_app. simpl.
      rewrite (Forall_lookup_1 _ _ _ _ Hn Hk). lia.
    - destruct Hm as [[Hs _] | [_ Hn]]; [congruence|].
      right. split; [discriminate|exact Hn].
    - destruct Hm as [[Hs _] | [_ Hn]]; [congruence|].
      right. split; [discriminate|exact Hn]. }
  destruct Hinv as [[_ Hws] | [_ Hn]]; [|exact Hn].
  exists 0%nat. rewrite Hws. constructor.
Qed.


(** ** More on the focused index *)

(** X6: when there is at least one display, the focused index is the index
    of a display: the loop never leaves an index past the end of the list. *)
Theorem mouseScreenIndex_in_range (scr : Screen) :
  getAllDisplays scr <> [] ->
  (mouseScreenIndex scr < length (getAllDisplays scr))%nat.
Proof.
  intros Hne. unfold mouseScreenIndex.
  destruct (forEachDisplay_spec (getCursorScreenPoint scr) (getAllDisplays scr) 0 0)
    as [[_ ->]|(i & d & -> & Hi & _)].
  - destruct (getAllDisplays scr); [congruence|simpl; lia].
  - simpl. exact (lookup_lt_Some _ _ _ Hi).
Qed.

Lemma mouseScreenIndex_in_range_witness :
  (mouseScreenIndex offScreen < length (getAllDisplays offScreen))%nat.
Proof. apply (mouseScreenIndex_in_range offScreen). discriminate. Defined.

Lemma cursorInBounds_translate (dx dy : Z) (p : Point) (b : Rectangle) :
  cursorInBounds {| px := px p + dx; py := py p + dy |} (translateRect dx dy b)
  = cursorInBounds p b.
Proof.
  apply eq_true_iff_eq. rewrite !cursorInBounds_iff. simpl. lia.
Qed.

Lemma forEachDisplay_translate (dx dy : Z) (p : Point) (displays : list Display) :
  forall index start : nat,
    forEachDisplay {| px := px p + dx; py := py p + dy |}
                   (translateDisplay dx dy <$> displays) index start
    = forEachDisplay p displays index start.
Proof.
  induction displays as [|d rest IH]; intros index start; simpl; [reflexivity|].
  rewrite cursorInBounds_translate. apply IH.
Qed.

(** X7: the focused index depends on where the cursor is relative to the
    displays only: moving every display and the cursor by the same offset,
    into negative coordinates or out of them, leaves it unchanged. *)
Theorem mouseScreenIndex_translate (dx dy : Z) (scr : Screen) :
  mouseScreenIndex (translateScreen dx dy scr) = mouseScreenIndex scr.
Proof. unfold mouseScreenIndex. simpl. apply forEachDisplay_translate. Qed.

(** X8: a display of no positive width or height holds no point, so it is
    the focused one only as the default: at an index other than 0 it never
    is. *)
Theorem mouseScreenIndex_skips_empty_display
    (scr : Screen) (i : nat) (d : Display) :
  getAllDisplays scr !! i = Some d ->
  width (bounds d) <= 0 \/ height (bounds d) <= 0 ->
  i <> 0%nat ->
  mouseScreenIndex scr <> i.
Proof.
  intros Hi Hempty Hne Heq. unfold mouseScreenIndex in Heq.
  destruct (forEachDisplay_spec (getCursorScreenPoint scr) (getAllDisplays scr) 0 0)
    as [[_ H0]|(j & d' & Hj & Hd' & Hin & _)].
  - congruence.
  - rewrite Heq in Hj. simpl in Hj. subst j.
    assert (d' = d) as -> by congruence.
    apply cursorInBounds_iff in Hin. lia.
Qed.

Lemma mouseScreenIndex_skips_empty_display_witness :
  mouseScreenIndex degenerateScreen <> 1%nat.
Proof.
  apply (mouseScreenIndex_skips_empty_display degenerateScreen 1%nat
    {| bounds := {| x := 1920; y := 0; width := 0; height := 1080 |} |});
    [reflexivity|left; simpl; lia|discriminate].
Defined.

(** ** More on the overlays *)

(** X9: a click on an entry of 'Blur Intensity' takes effect at once: after
    it [blurOpacity] is the value of the entry, [blurEnabled] is as before,
    and every overlay has received one more message, carrying the new opacity
    and the flag for the display under the cursor at that moment. *)
Theorem clickIntensity_takes_effect (m : Main) (i : Intensity) (scr : Screen) :
  phase m = Running ->
  let m' := step m (ClickIntensity i scr) in
  blurOpacity m' = intensityOpacity i /\
  blurEnabled m' = blurEnabled m /\
  forall k w, overlayWindows m !! k = Some w ->
    exists w', overlayWindows m' !! k = Some w' /\
      sent w' = sent w ++
        [{| channel := "set-blur";
            blurred := blurEnabled m && negb (k =? mouseScreenIndex scr)%nat;
            opacity := intensityOpacity i |}].
Proof.
  intros Hp m'. subst m'. unfold step. rewrite Hp.
  split; [reflexivity|]. split; [reflexivity|].
  intros k w Hw. eexists. rewrite updateOverlays_lookup. simpl. rewrite Hw. simpl.
  split; [reflexivity|]. apply updateOverlay_effect.
Qed.

Lemma clickIntensity_takes_effect_witness :
  blurOpacity (step blurOffProcess (ClickIntensity VeryStrong sideBySideScreen))
  = 0.9%float.
Proof.
  apply (clickIntensity_takes_effect blurOffProcess VeryStrong sideBySideScreen).
  reflexivity.
Defined.

(** X10: a click on 'Enable Blur' takes effect at once: after it
    [blurEnabled] is the state of the checkbox, [blurOpacity] is as before,
    and every overlay has received one more message whose flag is the checkbox
    state for every overlay but the focused one; an overlay is shown when its
    flag is on and keeps its visibility otherwise, so switching the blur off
    hides no window. *)
Theorem clickEnableBlur_takes_effect (m : Main) (checked : bool) (scr : Screen) :
  phase m = Running ->
  let m' := step m (ClickEnableBlur checked scr) in
  blurEnabled m' = checked /\
  blurOpacity m' = blurOpacity m /\
  forall k w, overlayWindows m !! k = Some w ->
    exists w', overlayWindows m' !! k = Some w' /\
      sent w' = sent w ++
        [{| channel := "set-blur";
            blurred := checked && negb (k =? mouseScreenIndex scr)%nat;
            opacity := blurOpacity m |}] /\
      visible w' = (checked && negb (k =? mouseScreenIndex scr)%nat) || visible w /\
      (checked = false -> visible w' = visible w).
Proof.
  intros Hp m'. subst m'. unfold step. rewrite Hp.
  split; [reflexivity|]. split; [reflexivity|].
  intros k w Hw. eexists. rewrite updateOverlays_lookup. simpl. rewrite Hw. simpl.
  split; [reflexivity|].
  destruct (updateOverlay_effect (withBlurEnabled checked m)
              (mouseScreenIndex scr) k w) as (Hsent & Hvis & _).
  split; [exact Hsent|]. split; [exact Hvis|].
  intros ->. exact Hvis.
Qed.

Lemma clickEnableBlur_takes_effect_witness :
  blurEnabled (step blurOffProcess (ClickEnableBlur true sideBySideScreen)) = true.
Proof.
  apply (clickEnableBlur_takes_effect blurOffProcess true sideBySideScreen).
  reflexivity.
Defined.

(** X11: running [updateOverlays] a second time on the same answer of
    [screen] repeats the message of the first run to every overlay and changes
    nothing else: visibility and bounds are those after the first run. *)
Theorem updateOverlays_twice
    (scr : Screen) (m : Main) (k : nat) (w : BrowserWindow) :
  overlayWindows m !! k = Some w ->
  exists w1 w2,
    overlayWindows (updateOverlays scr m) !! k = Some w1 /\
    overlayWindows (updateOverlays scr (updateOverlays scr m)) !! k = Some w2 /\
    sent w1 = sent w ++ [setBlurMessage m scr k] /\
    sent w2 = sent w1 ++ [setBlurMessage m scr k] /\
    visible w2 = visible w1 /\
    winBounds w2 = winBounds w1.
Proof.
  intros Hw.
  set (m1 := updateOverlays scr m).
  set (w1 := updateOverlay m (mouseScreenIndex scr) k w).
  assert (Hw1 : overlayWindows m1 !! k = Some w1).
  { unfold m1. rewrite updateOverlays_lookup, Hw. reflexivity. }
  exists w1, (updateOverlay m1 (mouseScreenIndex scr) k w1).
  split; [exact Hw1|].
  split; [rewrite updateOverlays_lookup, Hw1; reflexivity|].
  destruct (updateOverlay_effect m (mouseScreenIndex scr) k w) as (Hs1 & Hv1 & _).
  destruct (updateOverlay_effect m1 (mouseScreenIndex scr) k w1) as (Hs2 & Hv2 & Hb2).
  split; [exact Hs1|]. split; [exact Hs2|]. split; [|exact Hb2].
  rewrite Hv2. fold w1 in Hv1. rewrite Hv1. simpl.
  destruct (blurEnabled m && negb (k =? mouseScreenIndex scr)%nat); reflexivity.
Qed.

Lemma updateOverlays_twice_witness :
  exists w1 w2,
    overlayWindows (updateOverlays sideBySideScreen singleOverlayProcess) !! 0%nat
      = Some w1 /\
    overlayWindows (updateOverlays sideBySideScreen
                      (updateOverlays sideBySideScreen singleOverlayProcess)) !! 0%nat
      = Some w2 /\
    sent w1 = [] ++ [setBlurMessage singleOverlayProcess sideBySideScreen 0] /\
    sent w2 = sent w1 ++ [setBlurMessage singleOverlayProcess sideBySideScreen 0] /\
    visible w2 = visible w1 /\
    winBounds w2 = winBounds w1.
Proof.
  apply (updateOverlays_twice sideBySideScreen singleOverlayProcess 0%nat
    (createOverlayWindow
       {| bounds := {| x := 0; y := 0; width := 1920; height := 1080 |} |})).
  reflexivity.
Defined.

(** X12: [updateOverlays] reads the displays afresh but blurs the overlays
    made at startup; when the blur is on and the focused index is that of no
    overlay (the cursor is on a display that has none), every overlay is told
    to blur and is shown. *)
Theorem updateOverlays_focus_without_overlay (scr : Screen) (m : Main) :
  blurEnabled m = true ->
  (length (overlayWindows m) <= mouseScreenIndex scr)%nat ->
  Forall (fun w => visible w = true /\
                   exists msg, last (sent w) = Some msg /\ blurred msg = true)
         (overlayWindows (updateOverlays scr m)).
Proof.
  intros Hen Hlen. apply updateOverlays_Forall. intros k w Hk.
  apply lookup_lt_Some in Hk.
  destruct (updateOverlay_effect m (mouseScreenIndex scr) k w) as (Hs & Hv & _).
  assert (Hb : blurEnabled m && negb (k =? mouseScreenIndex scr)%nat = true).
  { rewrite Hen. simpl. apply negb_true_iff, Nat.eqb_neq. lia. }
  rewrite Hb in Hs, Hv. split; [exact Hv|].
  eexists. rewrite Hs, last_snoc. split; reflexivity.
Qed.

Lemma updateOverlays_focus_without_overlay_witness :
  Forall (fun w => visible w = true /\
                   exists msg, last (sent w) = Some msg /\ blurred msg = true)
         (overlayWindows (updateOverlays sideBySideScreen singleOverlayProcess)).
Proof.
  apply (updateOverlays_focus_without_overlay sideBySideScreen singleOverlayProcess);
    [reflexivity|].
  vm_compute. lia.
Defined.

(** X13: over any number of ticks of the timer a running process stays
    running with its blur state, and every overlay receives one message per
    tick, in the order of the ticks, each with the flag for the display under
    the cursor at that tick. *)
Theorem ticks_append_one_message_each (ticks : list Screen) :
  forall (m : Main) (k : nat) (w : BrowserWindow),
    phase m = Running ->
    overlayWindows m !! k = Some w ->
    let m' := run m (Interval <$> ticks) in
    phase m' = Running /\
    blurEnabled m' = blurEnabled m /\
    blurOpacity m' = blurOpacity m /\
    exists w', overlayWindows m' !! k = Some w' /\
      sent w' = sent w ++ ((fun scr => setBlurMessage m scr k) <$> ticks).
Proof.
  induction ticks as [|scr rest IH]; intros m k w Hp Hw; simpl.
  - repeat split; try assumption. exists w. rewrite app_nil_r. auto.
  - rewrite (step_Interval scr m Hp).
    set (w1 := updateOverlay m (mouseScreenIndex scr) k w).
    assert (Hw1 : overlayWindows (updateOverlays scr m) !! k = Some w1).
    { rewrite updateOverlays_lookup, Hw. reflexivity. }
    destruct (IH (updateOverlays scr m) k w1 Hp Hw1) as (Hp' & He & Ho & w' & Hw' & Hs).
    split; [exact Hp'|]. split; [exact He|]. split; [exact Ho|].
    exists w'. split; [exact Hw'|].
    rewrite Hs. unfold w1. rewrite updateOverlay_sent, <- app_assoc. reflexivity.
Qed.

Lemma ticks_append_one_message_each_witness :
  let m' := run singleOverlayProcess (Interval <$> [sideBySideScreen; offScreen]) in
  phase m' = Running /\
  blurEnabled m' = true /\
  blurOpacity m' = 0.7%float /\
  exists w', overlayWindows m' !! 0%nat = Some w' /\
    sent w' = [] ++ ((fun scr => setBlurMessage singleOverlayProcess scr 0)
                       <$> [sideBySideScreen; offScreen]).
Proof.
  apply (ticks_append_one_message_each [sideBySideScreen; offScreen]
    singleOverlayProcess 0%nat
    (createOverlayWindow
       {| bounds := {| x := 0; y := 0; width := 1920; height := 1080 |} |}));
    reflexivity.
Defined.

(** ** The loop over a longer list, and the whole path from cursor to overlay *)

Lemma forEachDisplay_app (p : Point) (front back : list Display) :
  forall index start : nat,
    forEachDisplay p (front ++ back) index start
    = forEachDisplay p back (index + length front)
        (forEachDisplay p front index start).
Proof.
  induction front as [|d rest IH]; intros index start; simpl.
  - rewrite Nat.add_0_r. reflexivity.
  - rewrite IH. f_equal. lia.
Qed.

(** X14: a display that comes last in the list takes the focus when it holds
    the cursor, whatever the displays before it, and leaves the focused index
    as it was when it does not. *)
Theorem mouseScreenIndex_snoc (displays : list Display) (d : Display) (p : Point) :
  mouseScreenIndex {| getAllDisplays := displays ++ [d];
                      getCursorScreenPoint := p |}
  = if cursorInBounds p (bounds d)
    then length displays
    else mouseScreenIndex {| getAllDisplays := displays;
                             getCursorScreenPoint := p |}.
Proof.
  unfold mouseScreenIndex. simpl. rewrite forEachDisplay_app. simpl.
  destruct (cursorInBounds p (bounds d)); reflexivity.
Qed.

(** With displays that do not overlap, the display holding the cursor is the
    focused one. *)
Lemma mouseScreenIndex_unique (scr : Screen) (i : nat) (r : Display) :
  nonOverlapping (getAllDisplays scr) = true ->
  getAllDisplays scr !! i = Some r ->
  cursorInBounds (getCursorScreenPoint scr) (bounds r) = true ->
  mouseScreenIndex scr = i.
Proof.
  intros Hno Hi Hr.
  destruct (mouseScreenIndex_highest_match scr i r Hi Hr) as [(d & Hf & Hd) _].
  destruct (decide (mouseScreenIndex scr = i)) as [|Hne]; [assumption|].
  pose proof (nonOverlapping_lookup _ Hno _ _ _ _ Hne Hf Hi) as Hdisj.
  assert (Hov : rectsOverlap (bounds d) (bounds r) = true).
  { apply rectsOverlap_iff. exists (getCursorScreenPoint scr). auto. }
  congruence.
Qed.

(** The overlays of a process started on [scr0] have the bounds of the
    displays of [scr0], in order. *)
Lemma overlays_of_started_process (scr0 : Screen) (events : list Event) :
  winBounds <$> overlayWindows (run initial (Ready scr0 :: events))
  = bounds <$> getAllDisplays scr0.
Proof.
  simpl. rewrite run_keeps_bounds by discriminate.
  simpl. rewrite pushOverlays_app. simpl.
  rewrite <- list_fmap_compose. apply list_fmap_ext.
  intros _ [[bx by_ bw bh]] _. reflexivity.
Qed.

(** X15: from the cursor to the overlays.  In a process started on displays
    that do not overlap and still running, at a tick on which the displays
    are those of the start and the cursor is inside display [i], the overlay
    covering that display is told not to blur and every other overlay is told
    [blurEnabled]. *)
Theorem tick_clears_overlay_under_cursor
    (scr0 scr : Screen) (events : list Event) (i : nat) (d : Display) :
  let m := run initial (Ready scr0 :: events) in
  phase m = Running ->
  getAllDisplays scr = getAllDisplays scr0 ->
  nonOverlapping (getAllDisplays scr) = true ->
  getAllDisplays scr !! i = Some d ->
  cursorInBounds (getCursorScreenPoint scr) (bounds d) = true ->
  (exists w' msg,
     overlayWindows (step m (Interval scr)) !! i = Some w' /\
     winBounds w' = bounds d /\
     last (sent w') = Some msg /\ blurred msg = false) /\
  (forall k w', k <> i ->
     overlayWindows (step m (Interval scr)) !! k = Some w' ->
     exists msg, last (sent w') = Some msg /\ blurred msg = blurEnabled m).
Proof.
  intros m Hp Hsame Hno Hi Hd.
  rewrite (step_Interval scr m Hp).
  pose proof (mouseScreenIndex_unique scr i d Hno Hi Hd) as Hfocus.
  pose proof (overlays_of_started_process scr0 events) as Hbounds.
  fold m in Hbounds. rewrite <- Hsame in Hbounds.
  split.
  - assert (Hw : winBounds <$> overlayWindows m !! i = Some (bounds d)).
    { rewrite <- list_lookup_fmap, Hbounds, list_lookup_fmap, Hi. reflexivity. }
    destruct (overlayWindows m !! i) as [w|] eqn:Hwi; [|discriminate].
    simpl in Hw. injection Hw as Hw.
    destruct (updateOverlay_effect m (mouseScreenIndex scr) i w) as (Hs & _ & Hb).
    eexists _, _. rewrite updateOverlays_lookup, Hwi. simpl.
    split; [reflexivity|]. split; [rewrite Hb; exact Hw|].
    rewrite Hs, last_snoc. split; [reflexivity|]. simpl.
    rewrite Hfocus, Nat.eqb_refl. apply andb_false_r.
  - intros k w' Hk Hw'. rewrite updateOverlays_lookup in Hw'.
    destruct (overlayWindows m !! k) as [w|]; [|discriminate].
    simpl in Hw'. injection Hw' as <-.
    destruct (updateOverlay_effect m (mouseScreenIndex scr) k w) as (Hs & _ & _).
    eexists. rewrite Hs, last_snoc. split; [reflexivity|]. simpl.
    rewrite Hfocus. apply Nat.eqb_neq in Hk. rewrite Hk. apply andb_true_r.
Qed.

Lemma tick_clears_overlay_under_cursor_witness :
  exists w' msg,
    overlayWindows (step (run initial [Ready offScreen]) (Interval sideBySideScreen))
      !! 1%nat = Some w' /\
    winBounds w' = {| x := 1920; y := 0; width := 1920; height := 1080 |} /\
    last (sent w') = Some msg /\ blurred msg = false.
Proof.
  apply (proj1 (tick_clears_overlay_under_cursor offScreen sideBySideScreen [] 1%nat
    {| bounds := {| x := 1920; y := 0; width := 1920; height := 1080 |} |}
    eq_refl eq_refl eq_refl eq_refl eq_refl)).
Defined.
